(** * Dremio connector for OpenMetadata: namespace translation, database
      discovery and connection-URL construction

    Shallow embedding of [src/connector/dremio_connector.py].

    Python strings are [string]s whose characters are the code points
    0..255; [None], booleans and strings that flow through the same
    variable are the three constructors of [pyval]; a call that can raise
    returns a [result]. *)

From Stdlib Require Import String Ascii List Bool Arith Lia.
From stdpp Require Import gmap strings list fin_maps.

Import ListNotations.
Local Open Scope string_scope.

(* Let [simpl] compute an append whose first argument starts with a character. *)
#[local] Arguments String.append !_ _ : simpl nomatch.

(** ** Python values, exceptions and results *)

Inductive pyval : Type :=
| PyNone : pyval
| PyBool : bool -> pyval
| PyStr : string -> pyval.

Inductive exn : Type :=
| AttributeError : string -> exn
| TypeError : string -> exn
| InvalidDremioConnectorException : string -> exn
| DriverError : string -> exn.

Inductive result (A : Type) : Type :=
| Returns : A -> result A
| Raises : exn -> result A.

Arguments Returns {A} _.
Arguments Raises {A} _.

(** Sequencing: the first exception raised is the outcome. *)
#[global] Instance result_ret : MRet result := fun A a => Returns a.
#[global] Instance result_bind : MBind result := fun A B k r =>
  match r with
  | Returns a => k a
  | Raises e => Raises e
  end.

(** [type(v).__name__], as it appears in the interpreter's messages. *)
Definition type_name (v : pyval) : string :=
  match v with
  | PyNone => "NoneType"
  | PyBool _ => "bool"
  | PyStr _ => "str"
  end.

Definition no_attribute (v : pyval) (attr : string) : exn :=
  AttributeError ("'" +:+ type_name v +:+ "' object has no attribute '" +:+ attr +:+ "'").

(** [str(v)], the conversion an f-string applies to [{v}]. *)
Definition py_str (v : pyval) : string :=
  match v with
  | PyNone => "None"
  | PyBool true => "True"
  | PyBool false => "False"
  | PyStr s => s
  end.

(** [bool(v)]: [None], [False] and the empty string are falsy. *)
Definition truthy (v : pyval) : bool :=
  match v with
  | PyNone => false
  | PyBool b => b
  | PyStr s => negb (String.eqb s "")
  end.

(** [v is None] *)
Definition is_none (v : pyval) : bool :=
  match v with
  | PyNone => true
  | _ => false
  end.

(** [v == w] on the values of this model. *)
Definition py_eq (v w : pyval) : bool :=
  match v, w with
  | PyNone, PyNone => true
  | PyBool a, PyBool b => Bool.eqb a b
  | PyStr s, PyStr t => String.eqb s t
  | _, _ => false
  end.

(** ** String operations *)

(** [s.startswith(p)] on two strings. *)
Fixpoint startswith (s p : string) {struct p} : bool :=
  match p with
  | EmptyString => true
  | String c p' =>
      match s with
      | EmptyString => false
      | String d s' => Ascii.eqb d c && startswith s' p'
      end
  end.

(** [s[n:]] for a non-negative [n]: past the end it is the empty string. *)
Fixpoint slice_from (n : nat) (s : string) : string :=
  match n with
  | O => s
  | S n' =>
      match s with
      | EmptyString => EmptyString
      | String _ s' => slice_from n' s'
      end
  end.

(** [c.isspace()] for the code points below 256: TAB, LF, VT, FF, CR, the
    four separators FS, GS, RS, US, the space, NEL and the no-break space. *)
Definition isspace (c : ascii) : bool :=
  let n := nat_of_ascii c in
  ((9 <=? n)%nat && (n <=? 13)%nat) || ((28 <=? n)%nat && (n <=? 32)%nat)
  || (n =? 133)%nat || (n =? 160)%nat.

Fixpoint lstrip (s : string) : string :=
  match s with
  | EmptyString => EmptyString
  | String c s' => if isspace c then lstrip s' else s
  end.

(** Strips trailing white space: a character is dropped when it is white
    space and everything after it has been dropped. *)
Fixpoint rstrip (s : string) : string :=
  match s with
  | EmptyString => EmptyString
  | String c s' =>
      match rstrip s' with
      | EmptyString => if isspace c then EmptyString else String c EmptyString
      | t => String c t
      end
  end.

(** [s.strip()] *)
Definition strip (s : string) : string := rstrip (lstrip s).

(** Method calls and operators on a value that may not be a string. *)

Definition py_startswith (v : pyval) (p : string) : result bool :=
  match v with
  | PyStr s => Returns (startswith s p)
  | _ => Raises (no_attribute v "startswith")
  end.

Definition py_strip (v : pyval) : result pyval :=
  match v with
  | PyStr s => Returns (PyStr (strip s))
  | _ => Raises (no_attribute v "strip")
  end.

Definition py_slice_from (n : nat) (v : pyval) : result pyval :=
  match v with
  | PyStr s => Returns (PyStr (slice_from n s))
  | _ => Raises (TypeError ("'" +:+ type_name v +:+ "' object is not subscriptable"))
  end.

Definition dquote : string := String (ascii_of_nat 34) EmptyString.

(** [s + v] with a string on the left. *)
Definition py_concat (s : string) (v : pyval) : result pyval :=
  match v with
  | PyStr t => Returns (PyStr (s +:+ t))
  | _ => Raises (TypeError ("can only concatenate str (not " +:+ dquote +:+ type_name v
                            +:+ dquote +:+ ") to str"))
  end.

(** ** The engine's namespace catalogue and the two queries *)

(** SQL [s LIKE p]: [%] matches any run of characters, [_] any single
    character, every other character itself; no escape character. *)
Fixpoint like (p s : string) {struct p} : bool :=
  match p with
  | EmptyString =>
      match s with
      | EmptyString => true
      | String _ _ => false
      end
  | String c p' =>
      if Ascii.eqb c "%" then
        (fix any (t : string) : bool :=
           like p' t ||
           match t with
           | EmptyString => false
           | String _ t' => any t'
           end) s
      else
        match s with
        | EmptyString => false
        | String d s' => (Ascii.eqb c "_" || Ascii.eqb c d) && like p' s'
        end
  end.

(** The SQL function [STARTS_WITH(s, p)]. *)
Definition STARTS_WITH (s p : string) : bool := startswith s p.

Inductive LogRecord : Type :=
| LogInfo : string -> LogRecord
| LogWarning : string -> LogRecord
| LogErrorTraceback : exn -> LogRecord.

(** Everything outside the connector object: the [SCHEMA_NAME] column of
    the engine's [INFORMATION_SCHEMA.SCHEMATA] in result order, the number
    of driver engines built so far, and the records written to the module's
    [logger], oldest first. *)
Record World : Type := {
  SCHEMATA : list string;
  engines_built : nat;
  log : list LogRecord
}.

Definition emit (r : LogRecord) (w : World) : World :=
  {| SCHEMATA := SCHEMATA w; engines_built := engines_built w; log := log w ++ [r] |}.

(** The [WHERE] clause of [DREMIO_GET_DATABASES]:
    [SCHEMA_NAME NOT LIKE '%.%'
     AND NOT STARTS_WITH(SCHEMA_NAME, '@')
     AND NOT STARTS_WITH(SCHEMA_NAME, '$')] *)
Definition DREMIO_GET_DATABASES_where (SCHEMA_NAME : string) : bool :=
  negb (like "%.%" SCHEMA_NAME)
  && negb (STARTS_WITH SCHEMA_NAME "@")
  && negb (STARTS_WITH SCHEMA_NAME "$").

(** [SELECT SCHEMA_NAME FROM INFORMATION_SCHEMA.SCHEMATA WHERE ...] *)
Definition DREMIO_GET_DATABASES (w : World) : list string :=
  List.filter DREMIO_GET_DATABASES_where (SCHEMATA w).

(** [SELECT SCHEMA_NAME FROM INFORMATION_SCHEMA.SCHEMATA
     WHERE SCHEMA_NAME LIKE '{database_name}.%'], the name spliced into the
    pattern as it is (a name without a single quote). *)
Definition DREMIO_GET_SCHEMAS (database_name : string) (w : World) : list string :=
  List.filter (fun SCHEMA_NAME => like (database_name +:+ ".%") SCHEMA_NAME) (SCHEMATA w).

(** [_execute_database_query]: the first column of every row. *)
Definition _execute_database_query (query : World -> list string) (w : World) : list string :=
  query w.

(** ** The connector object *)

Record CustomDatabaseConnection : Type := {
  connectionOptions : gmap string string
}.

Record Engine : Type := { engine_url : string }.

Record FilterPattern : Type := {
  includes : list string;
  excludes : list string
}.

(** The status sink of the ingestion framework: [filter(key, reason)] and
    [warning(key, reason)] append to these lists, [failed] to the last. *)
Record Status : Type := {
  filtered : list (string * string);
  warnings : list (string * string);
  failures : list string
}.

Definition status_filter (key reason : string) (st : Status) : Status :=
  {| filtered := filtered st ++ [(key, reason)];
     warnings := warnings st;
     failures := failures st |}.

Record DremioConnector : Type := {
  service_connection : CustomDatabaseConnection;
  databaseFilterPattern : option FilterPattern;
  useFqnForFiltering : bool;
  database_service : string;
  status : Status;
  database : option string;
  engine : option Engine;
  _connection_map : gmap nat Engine;
  _inspector_map : gmap nat Engine
}.

(** ** Namespace translation *)

Definition _remove_database_from_schema_name
    (self : DremioConnector) (schema_name : pyval) : result pyval :=
  match database self with
  | Some db =>
      starts ← py_startswith schema_name db;
      if negb starts || is_none schema_name || py_eq schema_name (PyStr db)
      then mret schema_name
      else py_slice_from (String.length db + 1) schema_name
  | None => mret schema_name
  end.

Definition _add_database_to_schema_name
    (self : DremioConnector) (schema_name : pyval) : result pyval :=
  match database self with
  | Some db =>
      blank ← (if is_none schema_name then mret true
               else stripped ← py_strip schema_name; mret (py_eq stripped (PyStr "")));
      if blank : bool then mret (PyStr db)
      else py_concat (db +:+ ".") schema_name
  | None => mret schema_name
  end.

(** ** Connection URL *)

Definition _get_option_or_else (connection : CustomDatabaseConnection)
    (option_name : string) (default : pyval) (expected : bool) : result pyval :=
  let value :=
    match connectionOptions connection !! option_name with
    | Some s => PyStr s
    | None => PyNone
    end in
  if negb (truthy value) then
    if expected
    then Raises (InvalidDremioConnectorException ("Missing connection option: " +:+ option_name))
    else mret default
  else mret value.

Definition handled_options : gset string :=
  {[ "username"; "password"; "hostPort"; "UseEncryption"; "disableCertificateVerification" ]}.

(** What a generator produced before it stopped, and the exception that
    stopped it, if one did. *)
Record Generated (A : Type) : Type := {
  yielded : list A;
  raised : option exn
}.

Arguments yielded {A} _.
Arguments raised {A} _.

Definition gen_cons {A : Type} (a : A) (g : Generated A) : Generated A :=
  {| yielded := a :: yielded g; raised := raised g |}.

Section Connector.

(** Iteration order of a Python [set] of strings: some enumeration of
    its elements, fixed by the interpreter and not by the program. *)
Variable set_iter : gset string -> list string.

(** [fqn.build(metadata, entity_type=Database, service_name, database_name)] *)
Variable fqn_build : string -> string -> string.

(** [filter_by_database(pattern, name)]: [true] when the name is to be
    filtered out. *)
Variable filter_by_database : option FilterPattern -> string -> bool.

(** The driver side of [create_generic_db_connection]: building the
    n-th engine of the session from a URL, which may raise. *)
Variable create_engine : nat -> string -> result Engine.

(** The dialect's [inspector.get_schema_names()]. *)
Variable get_schema_names : World -> list string.

Definition get_connection_url (connection : CustomDatabaseConnection) : result string :=
  let scheme_value := "dremio+flight" in
  username ← _get_option_or_else connection "username" PyNone true;
  password ← _get_option_or_else connection "password" PyNone true;
  host_port ← _get_option_or_else connection "hostPort" PyNone true;
  use_encryption ← _get_option_or_else connection "UseEncryption" (PyBool false) false;
  disable_certificate_verification ←
    _get_option_or_else connection "disableCertificateVerification" (PyBool true) false;
  let not_handled_options := dom (connectionOptions connection) ∖ handled_options in
  rest ← mapM (fun k => v ← _get_option_or_else connection k PyNone false;
                        mret (k +:+ "=" +:+ py_str v))
              (set_iter not_handled_options);
  let additional_options :=
    String.concat "&"
      (["UseEncryption=" +:+ py_str use_encryption;
        "disableCertificateVerification=" +:+ py_str disable_certificate_verification]
       ++ rest) in
  let url := scheme_value +:+ "://" in
  let url := url +:+ (py_str username +:+ ":" +:+ py_str password) in
  let url := url +:+ "@" in
  let url := url +:+ py_str host_port in
  let url := url +:+ "/?" in
  let url := url +:+ additional_options in
  mret url.

(** [create_generic_db_connection] asks its [get_connection_url_fn] for
    the URL and hands it to the driver. *)
Definition get_connection (connection : CustomDatabaseConnection) (w : World)
    : result Engine * World :=
  match get_connection_url connection with
  | Raises e => (Raises e, w)
  | Returns url =>
      (create_engine (engines_built w) url,
       {| SCHEMATA := SCHEMATA w; engines_built := S (engines_built w); log := log w |})
  end.

(** ** Switching the database *)

Definition set_inspector (self : DremioConnector) (w : World) (database_name : string)
    : result unit * DremioConnector * World :=
  let w := emit (LogInfo ("Ingesting from database: " +:+ database_name)) w in
  let new_service_connection := service_connection self in
  match get_connection new_service_connection w with
  | (Raises e, w) => (Raises e, self, w)
  | (Returns new_engine, w) =>
      (Returns tt,
       {| service_connection := service_connection self;
          databaseFilterPattern := databaseFilterPattern self;
          useFqnForFiltering := useFqnForFiltering self;
          database_service := database_service self;
          status := status self;
          database := Some database_name;
          engine := Some new_engine;
          _connection_map := ∅;
          _inspector_map := ∅ |},
       w)
  end.

(** ** Database discovery *)

Definition get_configured_database (self : DremioConnector) : option string := None.

Definition get_database_names_raw (self : DremioConnector) (w : World) : list string :=
  _execute_database_query DREMIO_GET_DATABASES w.

Definition exn_message (e : exn) : string :=
  match e with
  | AttributeError m | TypeError m | InvalidDremioConnectorException m | DriverError m => m
  end.

Definition set_status (self : DremioConnector) (st : Status) : DremioConnector :=
  {| service_connection := service_connection self;
     databaseFilterPattern := databaseFilterPattern self;
     useFqnForFiltering := useFqnForFiltering self;
     database_service := database_service self;
     status := st;
     database := database self;
     engine := engine self;
     _connection_map := _connection_map self;
     _inspector_map := _inspector_map self |}.

(** The [for] loop of [get_database_names], run to exhaustion by a
    consumer that does nothing between two items. *)
Fixpoint database_loop (candidates : list string) (self : DremioConnector) (w : World)
    : Generated string * DremioConnector * World :=
  match candidates with
  | [] => ({| yielded := []; raised := None |}, self, w)
  | new_database :: candidates' =>
      let database_fqn := fqn_build (database_service self) new_database in
      if filter_by_database (databaseFilterPattern self)
           (if useFqnForFiltering self then database_fqn else new_database)
      then
        database_loop candidates'
          (set_status self (status_filter database_fqn "Database Filtered Out" (status self))) w
      else
        match set_inspector self w new_database with
        | (Returns _, self, w) =>
            let '(g, self, w) := database_loop candidates' self w in
            (gen_cons new_database g, self, w)
        | (Raises exc, self, w) =>
            let w := emit (LogErrorTraceback exc) w in
            let w := emit (LogWarning ("Error trying to process database " +:+ new_database
                                       +:+ ": " +:+ exn_message exc)) w in
            database_loop candidates' self w
        end
  end.

Definition get_database_names (self : DremioConnector) (w : World)
    : Generated string * DremioConnector * World :=
  match get_configured_database self with
  | Some configured_database =>
      if truthy (PyStr configured_database) then
        match set_inspector self w configured_database with
        | (Returns _, self, w) =>
            ({| yielded := [configured_database]; raised := None |}, self, w)
        | (Raises e, self, w) => ({| yielded := []; raised := Some e |}, self, w)
        end
      else database_loop (get_database_names_raw self w) self w
  | None => database_loop (get_database_names_raw self w) self w
  end.

(** ** Schema discovery *)

(** The [for] loop of [get_raw_database_schema_names]: every name goes
    through [_remove_database_from_schema_name]; an exception ends the
    generator. *)
Fixpoint clean_schema_names (self : DremioConnector) (schemas : list string)
    : Generated pyval :=
  match schemas with
  | [] => {| yielded := []; raised := None |}
  | schema_name :: schemas' =>
      match _remove_database_from_schema_name self (PyStr schema_name) with
      | Returns cleaned_schema_name =>
          gen_cons cleaned_schema_name (clean_schema_names self schemas')
      | Raises e => {| yielded := []; raised := Some e |}
      end
  end.

Definition get_raw_database_schema_names (self : DremioConnector) (w : World)
    : Generated pyval :=
  let schemas :=
    match database self with
    | Some db => _execute_database_query (DREMIO_GET_SCHEMAS db) w
    | None => get_schema_names w
    end in
  clean_schema_names self schemas.

End Connector.

(** ** Delegation to the generic source *)

Section Delegation.

(** The methods of the generic database source that the connector
    overrides and calls through [super()]; each may raise. *)
Variables Inspector TableType Columns SchemaDefinition Relations : Type.
Variable super_get_columns_and_constraints :
  pyval -> string -> string -> Inspector -> result Columns.
Variable super_get_schema_definition :
  TableType -> string -> pyval -> Inspector -> result SchemaDefinition.
Variable super_query_table_names_and_types : pyval -> result Relations.
Variable super_query_view_names_and_types : pyval -> result Relations.

Definition get_columns_and_constraints (self : DremioConnector)
    (schema_name : pyval) (table_name db_name : string) (inspector : Inspector)
    : result Columns :=
  qualified ← _add_database_to_schema_name self schema_name;
  super_get_columns_and_constraints qualified table_name db_name inspector.

Definition get_schema_definition (self : DremioConnector)
    (table_type : TableType) (table_name : string) (schema_name : pyval)
    (inspector : Inspector) : result SchemaDefinition :=
  qualified ← _add_database_to_schema_name self schema_name;
  super_get_schema_definition table_type table_name qualified inspector.

Definition query_table_names_and_types (self : DremioConnector) (schema_name : pyval)
    : result Relations :=
  qualified ← _add_database_to_schema_name self schema_name;
  super_query_table_names_and_types qualified.

Definition query_view_names_and_types (self : DremioConnector) (schema_name : pyval)
    : result Relations :=
  qualified ← _add_database_to_schema_name self schema_name;
  super_query_view_names_and_types qualified.

End Delegation.

(** [get_table_description]: the dialect has no table comments. *)
Definition get_table_description {Inspector : Type}
    (schema_name table_name : string) (inspector : Inspector) : string := "".

(** [get_connection_args]: no driver arguments. *)
Definition get_connection_args (connection : CustomDatabaseConnection) : gmap string pyval := ∅.

(** ** Sample objects *)

Definition empty_status : Status := {| filtered := []; warnings := []; failures := [] |}.

(** The connector as [__init__] leaves it: no database selected yet. *)
Definition new_connector (connection : CustomDatabaseConnection)
    (pattern : option FilterPattern) (use_fqn : bool) (service : string) : DremioConnector :=
  {| service_connection := connection;
     databaseFilterPattern := pattern;
     useFqnForFiltering := use_fqn;
     database_service := service;
     status := empty_status;
     database := None;
     engine := None;
     _connection_map := ∅;
     _inspector_map := ∅ |}.

(** The same object with [self.database] set to [db]. *)
Definition with_database (db : option string) (self : DremioConnector) : DremioConnector :=
  {| service_connection := service_connection self;
     databaseFilterPattern := databaseFilterPattern self;
     useFqnForFiltering := useFqnForFiltering self;
     database_service := database_service self;
     status := status self;
     database := db;
     engine := engine self;
     _connection_map := _connection_map self;
     _inspector_map := _inspector_map self |}.

Definition sample_options : gmap string string :=
  {[ "username" := "u"; "password" := "p"; "hostPort" := "h:1234" ]}.

Definition sample_connection : CustomDatabaseConnection :=
  {| connectionOptions := sample_options |}.

(** The same options and a pass-through option with the empty value. *)
Definition traced_connection : CustomDatabaseConnection :=
  {| connectionOptions := <["trace" := ""]> sample_options |}.

Definition sample_connector (db : option string) : DremioConnector :=
  with_database db (new_connector sample_connection None false "dremio").

(** A service-scoped name, [service.database]. *)
Definition sample_fqn_build (service_name database_name : string) : string :=
  service_name +:+ "." +:+ database_name.

(** A filter that excludes exactly the names listed in [excludes]. *)
Definition sample_filter (pattern : option FilterPattern) (name : string) : bool :=
  match pattern with
  | Some f => existsb (String.eqb name) (excludes f)
  | None => false
  end.

(** A driver that cannot build the first engine of the session. *)
Definition flaky_driver (n : nat) (url : string) : result Engine :=
  match n with
  | O => Raises (DriverError "connection refused")
  | S _ => Returns {| engine_url := url |}
  end.

Definition sample_world (schemata : list string) : World :=
  {| SCHEMATA := schemata; engines_built := 0; log := [] |}.




(** A generic source that answers with the schema name it was asked about. *)
Definition echo_source (schema_name : pyval) : result pyval := Returns schema_name.

(** ** Vocabulary of the statements *)

(** An engine-internal or nested namespace: a name that starts with [@] or
    [$], or that has a dot in it. *)
Definition system_namespace (n : string) : Prop :=
  startswith n "@" = true \/ startswith n "$" = true
  \/ exists a b : string, n = a +:+ "." +:+ b.

(** The same world with another namespace catalogue. *)
Definition with_schemata (schemata : list string) (w : World) : World :=
  {| SCHEMATA := schemata; engines_built := engines_built w; log := log w |}.

(** An option that is absent from the map or has the empty value. *)
Definition option_missing (connection : CustomDatabaseConnection) (k : string) : Prop :=
  connectionOptions connection !! k = None \/ connectionOptions connection !! k = Some "".

Definition required_options : list string := ["username"; "password"; "hostPort"].

(** A string made of white space only (the empty string included). *)
Fixpoint all_space (s : string) : bool :=
  match s with
  | EmptyString => true
  | String c s' => isspace c && all_space s'
  end.

(** A string without the [LIKE] wildcards [%] and [_]. *)
Fixpoint literal (s : string) : bool :=
  match s with
  | EmptyString => true
  | String c s' => negb (Ascii.eqb c "%") && negb (Ascii.eqb c "_") && literal s'
  end.

(** The value an option is rendered with: its own, or [default] when it
    is absent or empty. *)
Definition option_text (connection : CustomDatabaseConnection) (k default : string) : string :=
  match connectionOptions connection !! k with
  | Some s => if String.eqb s "" then default else s
  | None => default
  end.

(** Two connector objects with the same configuration: service
    connection, filter pattern, filtering flag and service name. *)
Definition same_settings (a b : DremioConnector) : Prop :=
  service_connection a = service_connection b
  /\ databaseFilterPattern a = databaseFilterPattern b
  /\ useFqnForFiltering a = useFqnForFiltering b
  /\ database_service a = database_service b.

(** What every step of database discovery preserves, from a connector
    and world before to a connector and world after: the configuration,
    the warnings and failures of the status sink, the engine's catalogue;
    filtered entries and log records are only appended, engines only
    added. *)
Definition run_frame (self self' : DremioConnector) (w w' : World) : Prop :=
  same_settings self' self
  /\ warnings (status self') = warnings (status self)
  /\ failures (status self') = failures (status self)
  /\ (exists more, filtered (status self') = (filtered (status self) ++ more)%list)
  /\ SCHEMATA w' = SCHEMATA w
  /\ engines_built w <= engines_built w'
  /\ (exists more, log w' = (log w ++ more)%list).

(** The test of the loop of [get_database_names] on a candidate. *)
Definition database_filtered_out (fqn_build : string -> string -> string)
    (filter_by_database : option FilterPattern -> string -> bool)
    (self : DremioConnector) (candidate : string) : bool :=
  filter_by_database (databaseFilterPattern self)
    (if useFqnForFiltering self then fqn_build (database_service self) candidate
     else candidate).

(** The last item of a list of names, as the selected database. *)
Definition last_selected (names : list string) (initial : option string) : option string :=
  List.last (List.map Some names) initial.

(** * Properties *)

(** ** Strings *)

Lemma startswith_append (p s : string) : startswith (p +:+ s) p = true.
Proof.
  induction p as [|c p IH]; simpl; [reflexivity|].
  rewrite Ascii.eqb_refl. exact IH.
Qed.

Lemma slice_from_append (p s : string) : slice_from (String.length p) (p +:+ s) = s.
Proof. induction p as [|c p IH]; cbn; [reflexivity | exact IH]. Qed.

Lemma append_assoc (a b c : string) : (a +:+ b) +:+ c = a +:+ (b +:+ c).
Proof. induction a as [|x a IH]; cbn; [reflexivity | now rewrite IH]. Qed.

Lemma length_append (a b : string) :
  String.length (a +:+ b) = String.length a + String.length b.
Proof. induction a as [|x a IH]; cbn; [reflexivity | now rewrite IH]. Qed.

Lemma startswith_length (s p : string) :
  startswith s p = true -> String.length p <= String.length s.
Proof.
  revert s; induction p as [|c p IH]; intros [|d s]; simpl; try lia; try discriminate.
  intros H. apply andb_prop in H as [_ H]. apply IH in H. lia.
Qed.


Lemma slice_from_length (n : nat) (s : string) :
  String.length (slice_from n s) = String.length s - n.
Proof.
  revert s; induction n as [|n IH]; intros [|c s]; simpl; try reflexivity.
  apply IH.
Qed.

Lemma longer_not_equal (p s : string) : String.eqb (p +:+ "." +:+ s) p = false.
Proof.
  apply String.eqb_neq. intros H.
  apply (f_equal String.length) in H. rewrite length_append in H. simpl in H. lia.
Qed.

(** ** Namespace translation *)

(** On a string, with a database selected, stripping never raises: the
    name comes back as it is when it does not start with the database name
    or is the database name, and without its first [len(database) + 1]
    characters otherwise. *)
Lemma remove_database_str (self : DremioConnector) (db s : string) :
  database self = Some db ->
  _remove_database_from_schema_name self (PyStr s)
  = Returns (PyStr (if negb (startswith s db) || String.eqb s db
                    then s else slice_from (String.length db + 1) s)).
Proof.
  intros Hdb. unfold _remove_database_from_schema_name. rewrite Hdb. simpl.
  rewrite orb_false_r. destruct (negb (startswith s db) || String.eqb s db); reflexivity.
Qed.

Lemma remove_database_unset (self : DremioConnector) (v : pyval) :
  database self = None -> _remove_database_from_schema_name self v = Returns v.
Proof. intros Hdb. unfold _remove_database_from_schema_name. now rewrite Hdb. Qed.

(** A name that carries the [database + "."] prefix loses exactly it. *)
Lemma remove_database_prefixed (self : DremioConnector) (db s : string) :
  database self = Some db ->
  _remove_database_from_schema_name self (PyStr (db +:+ "." +:+ s)) = Returns (PyStr s).
Proof.
  intros Hdb. rewrite (remove_database_str _ db) by exact Hdb.
  rewrite startswith_append, longer_not_equal. simpl.
  replace (String.length db + 1) with (String.length (db +:+ ".")).
  - change (String "."%char s) with ("." +:+ s).
    rewrite <- append_assoc. now rewrite slice_from_append.
  - rewrite length_append. reflexivity.
Qed.

(** A non-blank catalog name is prefixed with [database + "."]. *)
Lemma add_database_nonblank (self : DremioConnector) (db s : string) :
  database self = Some db ->
  strip s <> "" ->
  _add_database_to_schema_name self (PyStr s) = Returns (PyStr (db +:+ "." +:+ s)).
Proof.
  intros Hdb Hs. unfold _add_database_to_schema_name. rewrite Hdb. simpl.
  apply String.eqb_neq in Hs. rewrite Hs. simpl. now rewrite append_assoc.
Qed.

(** C1 (as amended): with a database selected, prefixing a catalog schema
    name that is not blank (something is left after trimming white space)
    and stripping the result gives the name back. *)
Theorem remove_after_add_roundtrip (self : DremioConnector) (db s : string) :
  database self = Some db ->
  strip s <> "" ->
  _add_database_to_schema_name self (PyStr s) ≫= _remove_database_from_schema_name self
  = Returns (PyStr s).
Proof.
  intros Hdb Hs. rewrite (add_database_nonblank self db s Hdb Hs).
  exact (remove_database_prefixed self db s Hdb).
Qed.

Lemma remove_after_add_roundtrip_witness :
  _add_database_to_schema_name (sample_connector (Some "sales")) (PyStr "public")
    ≫= _remove_database_from_schema_name (sample_connector (Some "sales"))
  = Returns (PyStr "public").
Proof.
  apply (remove_after_add_roundtrip (sample_connector (Some "sales")) "sales" "public").
  - reflexivity.
  - vm_compute. discriminate.
Defined.

(** C1 (as stated) fails on a non-empty name made of white space only: the
    prefixing step maps it to the database name itself, which the stripping
    step leaves alone. *)
Lemma roundtrip_fails_on_blank_name :
  " " <> ""
  /\ _add_database_to_schema_name (sample_connector (Some "db")) (PyStr " ")
       ≫= _remove_database_from_schema_name (sample_connector (Some "db"))
     = Returns (PyStr "db")
  /\ _add_database_to_schema_name (sample_connector (Some "db")) (PyStr " ")
       ≫= _remove_database_from_schema_name (sample_connector (Some "db"))
     <> Returns (PyStr " ").
Proof. repeat split; [discriminate | vm_compute; discriminate]. Qed.

(** C2: the code at [database = "sales"] and the schema name
    ["salesforce"], which starts with the database name but not with
    ["sales."]: six characters are cut off instead of none. *)
Theorem remove_database_cuts_undotted_prefix :
  startswith "salesforce" "sales" = true
  /\ startswith "salesforce" "sales." = false
  /\ _remove_database_from_schema_name (sample_connector (Some "sales")) (PyStr "salesforce")
     = Returns (PyStr "orce").
Proof. repeat split. Qed.

(** C8: the code at [database = "db"] and the schema name [None]: the
    [startswith] call comes before the [is None] test and raises. *)
Theorem remove_database_raises_on_none :
  _remove_database_from_schema_name (sample_connector (Some "db")) PyNone
  = Raises (AttributeError "'NoneType' object has no attribute 'startswith'").
Proof. reflexivity. Qed.

(** The empty name is returned as it is. *)
Lemma remove_database_empty (self : DremioConnector) :
  _remove_database_from_schema_name self (PyStr "") = Returns (PyStr "").
Proof.
  destruct (database self) as [db|] eqn:Hdb.
  - rewrite (remove_database_str self db "" Hdb).
    destruct db; reflexivity.
  - now apply remove_database_unset.
Qed.

(** C7 (as amended): stripping twice is stripping once whenever the name
    stripped once does not start with the database name, or is the database
    name. *)
Theorem remove_database_twice_when_clean (self : DremioConnector) (db s r : string) :
  database self = Some db ->
  _remove_database_from_schema_name self (PyStr s) = Returns (PyStr r) ->
  startswith r db = false \/ r = db ->
  _remove_database_from_schema_name self (PyStr s) ≫= _remove_database_from_schema_name self
  = _remove_database_from_schema_name self (PyStr s).
Proof.
  intros Hdb Hr Hclean. rewrite Hr. simpl.
  rewrite (remove_database_str self db r Hdb).
  destruct Hclean as [Hno | ->].
  - now rewrite Hno.
  - now rewrite String.eqb_refl, orb_true_r.
Qed.

Lemma remove_database_twice_when_clean_witness :
  _remove_database_from_schema_name (sample_connector (Some "sales")) (PyStr "sales.public")
    ≫= _remove_database_from_schema_name (sample_connector (Some "sales"))
  = _remove_database_from_schema_name (sample_connector (Some "sales")) (PyStr "sales.public").
Proof.
  apply (remove_database_twice_when_clean
           (sample_connector (Some "sales")) "sales" "sales.public" "public").
  - reflexivity.
  - reflexivity.
  - left. reflexivity.
Defined.

(** C7 (as stated) fails when the name stripped once still starts with the
    database name: ["a.a.b"] becomes ["a.b"], then ["b"]. *)
Lemma remove_database_not_idempotent :
  _remove_database_from_schema_name (sample_connector (Some "a")) (PyStr "a.a.b")
  = Returns (PyStr "a.b")
  /\ _remove_database_from_schema_name (sample_connector (Some "a")) (PyStr "a.a.b")
       ≫= _remove_database_from_schema_name (sample_connector (Some "a"))
     = Returns (PyStr "b")
  /\ _remove_database_from_schema_name (sample_connector (Some "a")) (PyStr "a.a.b")
       ≫= _remove_database_from_schema_name (sample_connector (Some "a"))
     <> _remove_database_from_schema_name (sample_connector (Some "a")) (PyStr "a.a.b").
Proof. repeat split. vm_compute. discriminate. Qed.

(** ** The queries *)

Lemma like_percent (s : string) : like "%" s = true.
Proof.
  induction s as [|c s IH]; [reflexivity|].
  change (like "%" (String c s)) with (like "" (String c s) || like "%" s).
  now rewrite IH.
Qed.

Lemma like_dot_percent (s : string) :
  like ".%" s = true <-> exists b : string, s = "." +:+ b.
Proof.
  destruct s as [|d s].
  - split; [discriminate | intros [b Hb]; discriminate].
  - change (like ".%" (String d s)) with (Ascii.eqb "." d && like "%" s).
    rewrite like_percent, andb_true_r. split.
    + intros H. apply Ascii.eqb_eq in H. subst d. now exists s.
    + intros [b Hb]. simpl in Hb. injection Hb as -> _. reflexivity.
Qed.

Lemma like_contains_dot (s : string) :
  like "%.%" s = true <-> exists a b : string, s = a +:+ "." +:+ b.
Proof.
  induction s as [|c s IH].
  - split; [discriminate | intros [[|x a] [b Hb]]; discriminate].
  - change (like "%.%" (String c s)) with (like ".%" (String c s) || like "%.%" s).
    rewrite orb_true_iff, like_dot_percent, IH. split.
    + intros [[b Hb] | [a [b Hab]]].
      * exists "", b. exact Hb.
      * exists (String c a), b. simpl. now rewrite Hab.
    + intros [[|x a] [b Hab]].
      * left. now exists b.
      * right. simpl in Hab. injection Hab as -> ->. now exists a, b.
Qed.

(** Every name the database query returns is a top-level, non-system one. *)
Lemma DREMIO_GET_DATABASES_clean (w : World) :
  Forall (fun n => ~ system_namespace n) (DREMIO_GET_DATABASES w).
Proof.
  apply List.Forall_forall. intros n Hn.
  apply List.filter_In in Hn as [_ Hn]. unfold DREMIO_GET_DATABASES_where in Hn.
  apply andb_prop in Hn as [Hn Hdollar]. apply andb_prop in Hn as [Hdot Hat].
  unfold STARTS_WITH in *.
  intros [H | [H | H]].
  - now rewrite H in Hat.
  - now rewrite H in Hdollar.
  - apply like_contains_dot in H. now rewrite H in Hdot.
Qed.

(** A system namespace in the catalogue does not reach the result. *)
Lemma DREMIO_GET_DATABASES_skips (w : World) (before after : list string) (n : string) :
  system_namespace n ->
  DREMIO_GET_DATABASES (with_schemata (before ++ n :: after) w)
  = DREMIO_GET_DATABASES (with_schemata (before ++ after) w).
Proof.
  intros Hn. unfold DREMIO_GET_DATABASES, with_schemata. cbn [SCHEMATA].
  rewrite !List.filter_app. cbn [List.filter].
  replace (DREMIO_GET_DATABASES_where n) with false; [reflexivity|].
  unfold DREMIO_GET_DATABASES_where, STARTS_WITH. destruct Hn as [H | [H | H]].
  - rewrite H. now rewrite andb_false_r.
  - rewrite H. now rewrite andb_false_r.
  - apply like_contains_dot in H. now rewrite H.
Qed.

(** ** Database discovery *)

Section DiscoveryProperties.

Variable set_iter : gset string -> list string.
Variable fqn_build : string -> string -> string.
Variable filter_by_database : option FilterPattern -> string -> bool.
Variable create_engine : nat -> string -> result Engine.

Local Abbreviation switch := (set_inspector set_iter create_engine).
Local Abbreviation loop :=
  (database_loop set_iter fqn_build filter_by_database create_engine).
Local Abbreviation discover :=
  (get_database_names set_iter fqn_build filter_by_database create_engine).

Lemma get_database_names_unfold (self : DremioConnector) (w : World) :
  discover self w = loop (DREMIO_GET_DATABASES w) self w.
Proof. reflexivity. Qed.

(** The catalogue is only read by the queries: the switch and the loop
    carry it along. *)
Lemma set_inspector_with_schemata (self : DremioConnector) (w : World)
    (l : list string) (db : string) :
  switch self (with_schemata l w) db
  = let '(r, self', w') := switch self w db in (r, self', with_schemata l w').
Proof.
  unfold set_inspector, get_connection.
  destruct (get_connection_url set_iter (service_connection self)) as [url|e];
    [|reflexivity].
  cbn [emit with_schemata engines_built log SCHEMATA].
  destruct (create_engine (engines_built w) url); reflexivity.
Qed.

Lemma database_loop_with_schemata (candidates l : list string)
    (self : DremioConnector) (w : World) :
  loop candidates self (with_schemata l w)
  = let '(g, self', w') := loop candidates self w in (g, self', with_schemata l w').
Proof.
  revert self w. induction candidates as [|c candidates IH]; intros self w.
  - reflexivity.
  - cbn [database_loop].
    destruct (filter_by_database _ _).
    + apply IH.
    + rewrite set_inspector_with_schemata.
      destruct (switch self w c) as [[[u|exc] self1] w1].
      * rewrite IH. destruct (loop candidates self1 w1) as [[g self2] w2]. reflexivity.
      * exact (IH self1 (emit _ (emit _ w1))).
Qed.

(** The loop never ends with an exception, and yields candidates only. *)
Lemma database_loop_raised (candidates : list string) (self : DremioConnector) (w : World) :
  raised (loop candidates self w).1.1 = None.
Proof.
  revert self w. induction candidates as [|c candidates IH]; intros self w.
  - reflexivity.
  - cbn [database_loop].
    destruct (filter_by_database _ _).
    + apply IH.
    + destruct (switch self w c) as [[[u|exc] self1] w1].
      * specialize (IH self1 w1).
        destruct (loop candidates self1 w1) as [[g self2] w2]. exact IH.
      * apply IH.
Qed.

Lemma database_loop_yielded (P : string -> Prop) (candidates : list string)
    (self : DremioConnector) (w : World) :
  Forall P candidates -> Forall P (yielded (loop candidates self w).1.1).
Proof.
  intros HP. revert self w. induction HP as [|c candidates Hc HP IH]; intros self w.
  - constructor.
  - cbn [database_loop].
    destruct (filter_by_database _ _).
    + apply IH.
    + destruct (switch self w c) as [[[u|exc] self1] w1].
      * specialize (IH self1 w1).
        destruct (loop candidates self1 w1) as [[g self2] w2].
        constructor; assumption.
      * apply IH.
Qed.

(** Running the loop over [l1 ++ l2] is running it over [l1], then over
    [l2] from where the first run ended. *)
Lemma database_loop_app (l1 l2 : list string) (self : DremioConnector) (w : World) :
  loop (l1 ++ l2) self w
  = let '(g1, self1, w1) := loop l1 self w in
    let '(g2, self2, w2) := loop l2 self1 w1 in
    ({| yielded := yielded g1 ++ yielded g2; raised := raised g2 |}, self2, w2).
Proof.
  revert self w. induction l1 as [|c l1 IH]; intros self w.
  - cbn [List.app database_loop].
    destruct (loop l2 self w) as [[[ys e] self2] w2]. reflexivity.
  - cbn [List.app database_loop].
    destruct (filter_by_database _ _).
    + apply IH.
    + destruct (switch self w c) as [[[u|exc] self1] w1].
      * rewrite IH. destruct (loop l1 self1 w1) as [[g1 self2] w2].
        destruct (loop l2 self2 w2) as [[g2 self3] w3]. reflexivity.
      * apply IH.
Qed.

(** A switch that raises has written its [info] record and nothing else:
    the connector object is as before. *)
Lemma set_inspector_raises (self self' : DremioConnector) (w w' : World)
    (db : string) (exc : exn) :
  switch self w db = (Raises exc, self', w') ->
  self' = self
  /\ log w' = (log w ++ [LogInfo ("Ingesting from database: " +:+ db)])%list.
Proof.
  unfold set_inspector, get_connection.
  destruct (get_connection_url set_iter (service_connection self)) as [url|e].
  - cbn [emit engines_built log SCHEMATA].
    destruct (create_engine (engines_built w) url); [discriminate|].
    intros H. injection H as _ <- <-. split; reflexivity.
  - intros H. injection H as _ <- <-. split; reflexivity.
Qed.

(** C3: whatever the filter pattern, the filtering flag and the filter
    itself, no yielded database name starts with [@] or [$] or has a dot;
    and such a name in the engine's catalogue changes nothing of a run
    (items, connector object with its status, log): it is gone before
    the filter is asked. *)
Theorem get_database_names_excludes_system_namespaces
    (self : DremioConnector) (w : World) :
  Forall (fun n => ~ system_namespace n)
    (yielded (get_database_names set_iter fqn_build filter_by_database create_engine
                self w).1.1)
  /\ forall (before after : list string) (n : string),
       system_namespace n ->
       SCHEMATA w = (before ++ after)%list ->
       let run :=
         get_database_names set_iter fqn_build filter_by_database create_engine self w in
       let run' :=
         get_database_names set_iter fqn_build filter_by_database create_engine self
           (with_schemata (before ++ n :: after) w) in
       run'.1.1 = run.1.1 /\ run'.1.2 = run.1.2 /\ log run'.2 = log run.2.
Proof.
  split.
  - rewrite get_database_names_unfold.
    apply database_loop_yielded, DREMIO_GET_DATABASES_clean.
  - intros before after n Hn Hw run run'. subst run run'.
    rewrite !get_database_names_unfold.
    rewrite (DREMIO_GET_DATABASES_skips w before after n Hn).
    replace (DREMIO_GET_DATABASES (with_schemata (before ++ after) w))
      with (DREMIO_GET_DATABASES w)
      by (unfold DREMIO_GET_DATABASES, with_schemata; cbn [SCHEMATA]; now rewrite Hw).
    rewrite database_loop_with_schemata.
    destruct (loop (DREMIO_GET_DATABASES w) self w) as [[g self'] w'].
    repeat split.
Qed.

(** C6 (as amended): when the switch to a candidate that passed the
    filter raises, the run does not end with that exception and does not
    yield the candidate at that point; the traceback is logged as an
    error and a message naming the candidate as a warning, the connector
    object (its status included) is left as it was, and the loop goes on
    with the remaining candidates. *)
Theorem get_database_names_survives_failed_switch
    (self : DremioConnector) (w : World) (before after : list string) (c : string)
    (g1 : Generated string) (self1 : DremioConnector) (w1 : World)
    (exc : exn) (self1' : DremioConnector) (w1' : World) :
  get_database_names_raw self w = (before ++ c :: after)%list ->
  database_loop set_iter fqn_build filter_by_database create_engine before self w
  = (g1, self1, w1) ->
  filter_by_database (databaseFilterPattern self1)
    (if useFqnForFiltering self1 then fqn_build (database_service self1) c else c) = false ->
  set_inspector set_iter create_engine self1 w1 c = (Raises exc, self1', w1') ->
  let w2 := emit (LogWarning ("Error trying to process database " +:+ c +:+ ": "
                              +:+ exn_message exc))
                 (emit (LogErrorTraceback exc) w1') in
  let rest :=
    database_loop set_iter fqn_build filter_by_database create_engine after self1' w2 in
  get_database_names set_iter fqn_build filter_by_database create_engine self w
  = ({| yielded := yielded g1 ++ yielded rest.1.1; raised := None |}, rest.1.2, rest.2)
  /\ self1' = self1
  /\ log w2 = (log w1 ++ [LogInfo ("Ingesting from database: " +:+ c);
                          LogErrorTraceback exc;
                          LogWarning ("Error trying to process database " +:+ c +:+ ": "
                                      +:+ exn_message exc)])%list.
Proof.
  intros Hraw Hbefore Hfilter Hswitch w2 rest.
  destruct (set_inspector_raises _ _ _ _ _ _ Hswitch) as [Hself Hlog].
  split; [|split].
  - rewrite get_database_names_unfold.
    change (DREMIO_GET_DATABASES w) with (get_database_names_raw self w).
    rewrite Hraw, database_loop_app, Hbefore.
    cbn [database_loop]. rewrite Hfilter, Hswitch.
    fold w2. fold rest.
    pose proof (database_loop_raised after self1' w2) as Hnone. fold rest in Hnone.
    destruct rest as [[g2 self2] w3]. simpl in Hnone |- *. now rewrite Hnone.
  - exact Hself.
  - subst w2. cbn [emit log]. rewrite Hlog, <- !List.app_assoc. reflexivity.
Qed.

End DiscoveryProperties.

Lemma get_database_names_excludes_system_namespaces_witness :
  let self := new_connector sample_connection None false "dremio" in
  let run := get_database_names elements sample_fqn_build sample_filter flaky_driver
               self (sample_world ["sales"; "hr"]) in
  let run' := get_database_names elements sample_fqn_build sample_filter flaky_driver
                self (with_schemata ["sales"; "@tmp"; "hr"] (sample_world ["sales"; "hr"])) in
  run'.1.1 = run.1.1 /\ run'.1.2 = run.1.2 /\ log run'.2 = log run.2.
Proof.
  intros self.
  destruct (get_database_names_excludes_system_namespaces
              elements sample_fqn_build sample_filter flaky_driver
              self (sample_world ["sales"; "hr"])) as [_ H].
  apply (H ["sales"] ["hr"] "@tmp").
  - left. reflexivity.
  - reflexivity.
Defined.

Lemma get_database_names_survives_failed_switch_witness :
  let self := new_connector sample_connection None false "dremio" in
  let run := get_database_names elements sample_fqn_build sample_filter flaky_driver
               self (sample_world ["a"; "b"]) in
  yielded run.1.1 = ["b"] /\ raised run.1.1 = None.
Proof.
  intros self.
  destruct (get_database_names_survives_failed_switch
              elements sample_fqn_build sample_filter flaky_driver
              self (sample_world ["a"; "b"]) [] ["b"] "a"
              {| yielded := []; raised := None |} self (sample_world ["a"; "b"])
              (DriverError "connection refused") self
              {| SCHEMATA := ["a"; "b"]; engines_built := 1;
                 log := [LogInfo "Ingesting from database: a"] |})
    as [Hrun _].
  - reflexivity.
  - reflexivity.
  - reflexivity.
  - vm_compute. reflexivity.
  - simpl. rewrite Hrun. vm_compute. split; reflexivity.
Defined.

(** C6 (as stated) fails on the status event: with candidates [a] and [b]
    and a driver that cannot build the engine for [a], the run yields [b]
    and logs the failure, and the status sink has recorded no warning, no
    failure and no filtered entry. *)
Lemma failed_switch_reports_no_status_warning :
  let self := new_connector sample_connection None false "dremio" in
  let w := sample_world ["a"; "b"] in
  let run := get_database_names elements sample_fqn_build sample_filter flaky_driver self w in
  (set_inspector elements flaky_driver self w "a").1.1 = Raises (DriverError "connection refused")
  /\ yielded run.1.1 = ["b"]
  /\ log run.2 = [LogInfo "Ingesting from database: a";
                  LogErrorTraceback (DriverError "connection refused");
                  LogWarning "Error trying to process database a: connection refused";
                  LogInfo "Ingesting from database: b"]
  /\ warnings (status run.1.2) = []
  /\ failures (status run.1.2) = []
  /\ filtered (status run.1.2) = [].
Proof. vm_compute. repeat split. Qed.

(** ** Schema discovery *)

(** With a database selected the loop never raises on the engine's rows,
    and its items are the rows, each one stripped, in the rows' order. *)
Lemma clean_schema_names_strips (self : DremioConnector) (db : string) (schemas : list string) :
  database self = Some db ->
  raised (clean_schema_names self schemas) = None
  /\ Forall2 (fun raw cleaned =>
                _remove_database_from_schema_name self (PyStr raw) = Returns cleaned)
             schemas (yielded (clean_schema_names self schemas)).
Proof.
  intros Hdb. induction schemas as [|raw schemas [IHr IHy]].
  - split; [reflexivity | constructor].
  - cbn [clean_schema_names].
    rewrite (remove_database_str self db raw Hdb). cbn [gen_cons yielded raised].
    split; [exact IHr|].
    constructor; [exact (remove_database_str self db raw Hdb) | exact IHy].
Qed.

Section SchemaProperties.

Variable get_schema_names : World -> list string.

(** C9: with a database selected, every raw name the schema query
    returns is passed through [_remove_database_from_schema_name] and
    yielded in the query's order, and the generator does not raise; when
    the database is ["sales"] and the raw names are ["sales.public"] and
    ["sales.reporting"], the items are ["public"] and ["reporting"]. *)
Theorem get_raw_database_schema_names_strips
    (self : DremioConnector) (w : World) (db : string) :
  database self = Some db ->
  let g := get_raw_database_schema_names get_schema_names self w in
  raised g = None
  /\ Forall2 (fun raw cleaned =>
                _remove_database_from_schema_name self (PyStr raw) = Returns cleaned)
             (_execute_database_query (DREMIO_GET_SCHEMAS db) w) (yielded g)
  /\ (db = "sales" ->
      _execute_database_query (DREMIO_GET_SCHEMAS db) w = ["sales.public"; "sales.reporting"] ->
      yielded g = [PyStr "public"; PyStr "reporting"]).
Proof.
  intros Hdb g. subst g. unfold get_raw_database_schema_names. rewrite Hdb.
  destruct (clean_schema_names_strips self db
              (_execute_database_query (DREMIO_GET_SCHEMAS db) w) Hdb) as [Hr Hy].
  split; [exact Hr|]. split; [exact Hy|].
  intros -> Hraw. rewrite Hraw. cbn [clean_schema_names].
  rewrite !(remove_database_str self "sales" _ Hdb). reflexivity.
Qed.

End SchemaProperties.

Lemma get_raw_database_schema_names_strips_witness :
  yielded (get_raw_database_schema_names SCHEMATA (sample_connector (Some "sales"))
             (sample_world ["sales"; "sales.public"; "hr.people"; "sales.reporting"; "@tmp"]))
  = [PyStr "public"; PyStr "reporting"].
Proof.
  apply (get_raw_database_schema_names_strips SCHEMATA (sample_connector (Some "sales"))
           (sample_world ["sales"; "sales.public"; "hr.people"; "sales.reporting"; "@tmp"])
           "sales").
  - reflexivity.
  - reflexivity.
  - vm_compute. reflexivity.
Defined.

(** ** Connection URL *)

Lemma get_option_present (connection : CustomDatabaseConnection) (k s : string)
    (default : pyval) (expected : bool) :
  connectionOptions connection !! k = Some s ->
  s <> "" ->
  _get_option_or_else connection k default expected = Returns (PyStr s).
Proof.
  intros Hk Hs. unfold _get_option_or_else. rewrite Hk. cbn [truthy].
  apply String.eqb_neq in Hs. now rewrite Hs.
Qed.

Lemma get_option_missing (connection : CustomDatabaseConnection) (k : string)
    (default : pyval) (expected : bool) :
  option_missing connection k ->
  _get_option_or_else connection k default expected
  = if expected
    then Raises (InvalidDremioConnectorException ("Missing connection option: " +:+ k))
    else Returns default.
Proof.
  intros [Hk | Hk]; unfold _get_option_or_else; rewrite Hk; reflexivity.
Qed.

(** An option is either missing or present with a non-empty value. *)
Lemma option_missing_dec (connection : CustomDatabaseConnection) (k : string) :
  option_missing connection k
  \/ exists s : string, connectionOptions connection !! k = Some s /\ s <> "".
Proof.
  unfold option_missing.
  destruct (connectionOptions connection !! k) as [s|]; [|now left; left].
  destruct (String.eqb_spec s "") as [-> | Hs].
  - left. now right.
  - right. now exists s.
Qed.

(** Reading an option that is not expected never raises. *)
Lemma get_option_optional (connection : CustomDatabaseConnection) (k : string)
    (default : pyval) :
  exists v : pyval, _get_option_or_else connection k default false = Returns v.
Proof.
  destruct (option_missing_dec connection k) as [Hk | [s [Hk Hs]]].
  - exists default. now rewrite (get_option_missing _ _ _ _ Hk).
  - exists (PyStr s). now apply get_option_present.
Qed.

(** The pass-through options are rendered one by one, in the order given:
    an absent or empty value as [None], any other value as it is. *)
Lemma passthrough_rendered (connection : CustomDatabaseConnection) (ks : list string) :
  mapM (fun k => v ← _get_option_or_else connection k PyNone false;
                 mret (k +:+ "=" +:+ py_str v)) ks
  = Returns (List.map
               (fun k => k +:+ "=" +:+
                         match connectionOptions connection !! k with
                         | Some s => if String.eqb s "" then "None" else s
                         | None => "None"
                         end) ks).
Proof.
  induction ks as [|k ks IH]; [reflexivity|].
  cbn [mapM List.map]. rewrite IH.
  unfold _get_option_or_else at 1.
  destruct (connectionOptions connection !! k) as [s|]; [|reflexivity].
  cbn [truthy]. destruct (String.eqb s ""); reflexivity.
Qed.

Section UrlProperties.

Variable set_iter : gset string -> list string.
Hypothesis set_iter_perm : forall X : gset string, set_iter X ≡ₚ elements X.

(** C5: when one of [username], [password], [hostPort] is absent or
    empty, the result is the configuration error naming a missing one of
    them (the first in that order) and no URL; [get_connection] then
    raises the same error without calling the driver: no engine is built
    and the world is as before. *)
Theorem get_connection_url_missing_required_option
    (connection : CustomDatabaseConnection) :
  (exists k : string, In k required_options /\ option_missing connection k) ->
  exists k : string,
    In k required_options
    /\ option_missing connection k
    /\ get_connection_url set_iter connection
       = Raises (InvalidDremioConnectorException ("Missing connection option: " +:+ k))
    /\ forall (create_engine : nat -> string -> result Engine) (w : World),
         get_connection set_iter create_engine connection w
         = (Raises (InvalidDremioConnectorException ("Missing connection option: " +:+ k)), w).
Proof.
  intros [k0 [Hin Hmiss]].
  assert (Hurl : exists k : string,
             In k required_options /\ option_missing connection k
             /\ get_connection_url set_iter connection
                = Raises (InvalidDremioConnectorException
                            ("Missing connection option: " +:+ k))).
  { unfold get_connection_url.
    destruct (option_missing_dec connection "username") as [Hu | [u [Hu Hu']]].
    { exists "username". split; [simpl; auto|]. split; [exact Hu|].
      now rewrite (get_option_missing _ _ _ _ Hu). }
    rewrite (get_option_present _ _ _ _ _ Hu Hu'). cbn [mbind result_bind].
    destruct (option_missing_dec connection "password") as [Hp | [p [Hp Hp']]].
    { exists "password". split; [simpl; auto|]. split; [exact Hp|].
      now rewrite (get_option_missing _ _ _ _ Hp). }
    rewrite (get_option_present _ _ _ _ _ Hp Hp'). cbn [mbind result_bind].
    assert (Hh : option_missing connection "hostPort").
    { unfold option_missing in *. simpl in Hin.
      destruct Hin as [<- | [<- | [<- | []]]]; [| | exact Hmiss].
      - destruct Hmiss as [H | H]; rewrite Hu in H; congruence.
      - destruct Hmiss as [H | H]; rewrite Hp in H; congruence. }
    exists "hostPort". split; [simpl; auto|]. split; [exact Hh|].
    now rewrite (get_option_missing _ _ _ _ Hh). }
  destruct Hurl as [k [Hk [Hm Hraise]]].
  exists k. split; [exact Hk|]. split; [exact Hm|]. split; [exact Hraise|].
  intros create_engine w. unfold get_connection. now rewrite Hraise.
Qed.

Lemma set_iter_empty : set_iter ∅ = [].
Proof.
  apply Permutation_nil. symmetry.
  rewrite <- (elements_empty (C := gset string)). apply set_iter_perm.
Qed.

(** C4: for the options [username = u], [password = p],
    [hostPort = h:1234] and nothing else, the URL is the one below. *)
Theorem get_connection_url_sample :
  get_connection_url set_iter
    {| connectionOptions :=
         {[ "username" := "u"; "password" := "p"; "hostPort" := "h:1234" ]} |}
  = Returns
      "dremio+flight://u:p@h:1234/?UseEncryption=False&disableCertificateVerification=True".
Proof.
  unfold get_connection_url. cbn [connectionOptions].
  replace (dom ({[ "username" := "u"; "password" := "p"; "hostPort" := "h:1234" ]}
                : gmap string string) ∖ handled_options)
    with (∅ : gset string) by (symmetry; vm_compute; reflexivity).
  rewrite set_iter_empty. vm_compute. reflexivity.
Qed.

(** Every option that is not a recognised one is visited once. *)
Lemma set_iter_visits_once (X : gset string) (k : string) :
  k ∈ X ->
  exists ks1 ks2 : list string,
    set_iter X = (ks1 ++ k :: ks2)%list /\ ~ In k ks1 /\ ~ In k ks2.
Proof.
  intros Hk.
  assert (Hin : k ∈ set_iter X) by (rewrite set_iter_perm; now apply elem_of_elements).
  assert (Hnd : NoDup (set_iter X)) by (rewrite set_iter_perm; apply NoDup_elements).
  apply list_elem_of_split in Hin as [ks1 [ks2 Hsplit]].
  exists ks1, ks2. split; [exact Hsplit|].
  rewrite Hsplit in Hnd. apply NoDup_app in Hnd as [_ [Hdisj Hnd]].
  apply NoDup_cons in Hnd as [Hk2 _].
  rewrite <- !list_elem_of_In. split; [|exact Hk2].
  intros Hk1. apply (Hdisj k Hk1). now left.
Qed.

(** C10: with the three required options present and non-empty, a key
    outside the recognised ones whose value is the empty string does not
    make the call fail and is rendered, in its place among the
    pass-through options after the two recognised booleans, as
    [k=None]. *)
Theorem get_connection_url_renders_empty_option_as_None
    (connection : CustomDatabaseConnection) (u p h k : string) :
  connectionOptions connection !! "username" = Some u -> u <> "" ->
  connectionOptions connection !! "password" = Some p -> p <> "" ->
  connectionOptions connection !! "hostPort" = Some h -> h <> "" ->
  k ∉ handled_options ->
  connectionOptions connection !! k = Some "" ->
  exists (use_encryption disable_certificate_verification : string)
         (ks1 ks2 rest1 rest2 : list string),
    set_iter (dom (connectionOptions connection) ∖ handled_options) = (ks1 ++ k :: ks2)%list
    /\ ~ In k ks1 /\ ~ In k ks2
    /\ length rest1 = length ks1 /\ length rest2 = length ks2
    /\ get_connection_url set_iter connection
       = Returns ("dremio+flight://" +:+ u +:+ ":" +:+ p +:+ "@" +:+ h +:+ "/?"
                  +:+ String.concat "&"
                        ([use_encryption; disable_certificate_verification]
                         ++ rest1 ++ [k +:+ "=None"] ++ rest2)).
Proof.
  intros Hu Hu' Hp Hp' Hh Hh' Hk Hempty.
  assert (Hdom : k ∈ dom (connectionOptions connection) ∖ handled_options).
  { apply elem_of_difference. split; [|exact Hk]. apply elem_of_dom. now exists "". }
  destruct (set_iter_visits_once _ _ Hdom) as [ks1 [ks2 [Hsplit [Hk1 Hk2]]]].
  destruct (get_option_optional connection "UseEncryption" (PyBool false)) as [ue Hue].
  destruct (get_option_optional connection "disableCertificateVerification" (PyBool true))
    as [dcv Hdcv].
  set (render := fun k => k +:+ "=" +:+
                          match connectionOptions connection !! k with
                          | Some s => if String.eqb s "" then "None" else s
                          | None => "None"
                          end).
  exists ("UseEncryption=" +:+ py_str ue),
         ("disableCertificateVerification=" +:+ py_str dcv),
         ks1, ks2, (List.map render ks1), (List.map render ks2).
  split; [exact Hsplit|]. split; [exact Hk1|]. split; [exact Hk2|].
  split; [apply List.length_map|]. split; [apply List.length_map|].
  unfold get_connection_url.
  rewrite (get_option_present _ _ _ _ _ Hu Hu'), (get_option_present _ _ _ _ _ Hp Hp'),
    (get_option_present _ _ _ _ _ Hh Hh'), Hue, Hdcv.
  cbn [mbind result_bind].
  rewrite passthrough_rendered. fold render. cbn [mbind result_bind mret result_ret py_str].
  rewrite Hsplit, List.map_app. cbn [List.map].
  replace (render k) with (k +:+ "=None")
    by (unfold render; rewrite Hempty; reflexivity).
  f_equal. rewrite !append_assoc. reflexivity.
Qed.

End UrlProperties.

Lemma get_connection_url_sample_witness :
  get_connection_url elements
    {| connectionOptions :=
         {[ "username" := "u"; "password" := "p"; "hostPort" := "h:1234" ]} |}
  = Returns
      "dremio+flight://u:p@h:1234/?UseEncryption=False&disableCertificateVerification=True".
Proof.
  apply (get_connection_url_sample elements). intros X. reflexivity.
Defined.

Lemma get_connection_url_missing_required_option_witness :
  exists k : string,
    In k required_options
    /\ option_missing {| connectionOptions := {[ "username" := "u"; "password" := "p" ]} |} k
    /\ get_connection_url elements
         {| connectionOptions := {[ "username" := "u"; "password" := "p" ]} |}
       = Raises (InvalidDremioConnectorException ("Missing connection option: " +:+ k))
    /\ forall (create_engine : nat -> string -> result Engine) (w : World),
         get_connection elements create_engine
           {| connectionOptions := {[ "username" := "u"; "password" := "p" ]} |} w
         = (Raises (InvalidDremioConnectorException ("Missing connection option: " +:+ k)), w).
Proof.
  apply (get_connection_url_missing_required_option elements
           {| connectionOptions := {[ "username" := "u"; "password" := "p" ]} |}).
  exists "hostPort". split.
  - simpl. auto.
  - left. vm_compute. reflexivity.
Defined.

(** Options without [hostPort]: the error names [hostPort]. *)
Example get_connection_url_without_hostPort :
  get_connection_url elements
    {| connectionOptions := {[ "username" := "u"; "password" := "p" ]} |}
  = Raises (InvalidDremioConnectorException "Missing connection option: hostPort").
Proof. vm_compute. reflexivity. Qed.

Lemma get_connection_url_renders_empty_option_as_None_witness :
  exists (use_encryption disable_certificate_verification : string)
         (ks1 ks2 rest1 rest2 : list string),
    elements (dom (connectionOptions traced_connection) ∖ handled_options)
    = (ks1 ++ "trace" :: ks2)%list
    /\ ~ In "trace" ks1 /\ ~ In "trace" ks2
    /\ length rest1 = length ks1 /\ length rest2 = length ks2
    /\ get_connection_url elements traced_connection
       = Returns ("dremio+flight://" +:+ "u" +:+ ":" +:+ "p" +:+ "@" +:+ "h:1234" +:+ "/?"
                  +:+ String.concat "&"
                        ([use_encryption; disable_certificate_verification]
                         ++ rest1 ++ ["trace" +:+ "=None"] ++ rest2)).
Proof.
  apply (get_connection_url_renders_empty_option_as_None elements
           (fun X => reflexivity (elements X))
           traced_connection "u" "p" "h:1234" "trace").
  - vm_compute. reflexivity.
  - discriminate.
  - vm_compute. reflexivity.
  - discriminate.
  - vm_compute. reflexivity.
  - discriminate.
  - vm_compute. discriminate.
  - vm_compute. reflexivity.
Defined.

(** The same call evaluated. *)
Example get_connection_url_with_empty_option :
  get_connection_url elements traced_connection
  = Returns ("dremio+flight://u:p@h:1234/?UseEncryption=False"
             +:+ "&disableCertificateVerification=True&trace=None").
Proof. vm_compute. reflexivity. Qed.

(** * Further properties *)

(** ** White space *)

Lemma all_space_lstrip (s : string) : all_space (lstrip s) = all_space s.
Proof.
  induction s as [|c s IH]; [reflexivity|].
  cbn [lstrip all_space]. destruct (isspace c) eqn:Hc.
  - exact IH.
  - cbn [all_space]. now rewrite Hc.
Qed.

Lemma rstrip_empty (s : string) : rstrip s = "" <-> all_space s = true.
Proof.
  induction s as [|c s IH]; [split; reflexivity|].
  cbn [rstrip all_space]. destruct (rstrip s) as [|x t].
  - assert (Hs : all_space s = true) by now apply IH.
    rewrite Hs, andb_true_r. destruct (isspace c); split; congruence.
  - assert (Hs : all_space s = false).
    { destruct (all_space s); [|reflexivity].
      assert (String x t = "") by now apply IH. discriminate. }
    rewrite Hs, andb_false_r. split; discriminate.
Qed.

(** [s.strip() == ""] exactly when [s] is made of white space only. *)
Lemma strip_empty (s : string) : strip s = "" <-> all_space s = true.
Proof. unfold strip. now rewrite rstrip_empty, all_space_lstrip. Qed.

Lemma strip_eqb_empty (s : string) : String.eqb (strip s) "" = all_space s.
Proof.
  destruct (all_space s) eqn:Hs.
  - apply String.eqb_eq. now apply strip_empty.
  - apply String.eqb_neq. intros H. apply strip_empty in H. congruence.
Qed.

Lemma slice_from_suffix (n : nat) (s : string) :
  exists pre : string, s = pre +:+ slice_from n s /\ String.length pre <= n.
Proof.
  revert s. induction n as [|n IH]; intros s.
  - exists "". split; [reflexivity | simpl; lia].
  - destruct s as [|c s].
    + exists "". split; [reflexivity | simpl; lia].
    + destruct (IH s) as [pre [Hpre Hlen]].
      exists (String c pre). cbn [slice_from]. split.
      * simpl. now rewrite <- Hpre.
      * simpl. lia.
Qed.

(** ** Namespace translation, continued *)

Lemma add_database_values (self : DremioConnector) (db : string) :
  database self = Some db ->
  _add_database_to_schema_name self PyNone = Returns (PyStr db)
  /\ forall s : string,
       _add_database_to_schema_name self (PyStr s)
       = Returns (PyStr (if all_space s then db else db +:+ "." +:+ s)).
Proof.
  intros Hdb. unfold _add_database_to_schema_name. rewrite Hdb. split; [reflexivity|].
  intros s. cbn [is_none py_strip mbind result_bind mret result_ret py_eq].
  rewrite strip_eqb_empty. destruct (all_space s); [reflexivity|].
  cbn [py_concat]. now rewrite append_assoc.
Qed.

Lemma add_after_remove_value (self : DremioConnector) (db s : string) :
  database self = Some db ->
  _remove_database_from_schema_name self (PyStr (db +:+ "." +:+ s))
    ≫= _add_database_to_schema_name self
  = Returns (PyStr (if all_space s then db else db +:+ "." +:+ s)).
Proof.
  intros Hdb. rewrite (remove_database_prefixed self db s Hdb).
  destruct (add_database_values self db Hdb) as [_ Hstr]. exact (Hstr s).
Qed.

(** X1: With a database selected, prefixing never fails on [None] or on a
    string: [None] and every string made of white space only give the
    database name itself, every other string [s] gives
    [database + "." + s]. *)
Theorem add_database_cases (self : DremioConnector) (db : string) :
  database self = Some db ->
  _add_database_to_schema_name self PyNone = Returns (PyStr db)
  /\ forall s : string,
       _add_database_to_schema_name self (PyStr s)
       = Returns (PyStr (if all_space s then db else db +:+ "." +:+ s)).
Proof. exact (add_database_values self db). Qed.

Lemma add_database_cases_witness :
  _add_database_to_schema_name (sample_connector (Some "sales")) PyNone
  = Returns (PyStr "sales")
  /\ forall s : string,
       _add_database_to_schema_name (sample_connector (Some "sales")) (PyStr s)
       = Returns (PyStr (if all_space s then "sales" else "sales" +:+ "." +:+ s)).
Proof. apply (add_database_cases (sample_connector (Some "sales")) "sales"). reflexivity. Defined.

(** X2: Whatever prefixing returns under a selected database is a string that
    begins with the database name. *)
Theorem add_database_stays_in_database (self : DremioConnector) (db : string)
    (schema_name r : pyval) :
  database self = Some db ->
  _add_database_to_schema_name self schema_name = Returns r ->
  exists t : string, r = PyStr (db +:+ t).
Proof.
  intros Hdb Hr. destruct (add_database_values self db Hdb) as [Hnone Hstr].
  destruct schema_name as [|b|s].
  - rewrite Hnone in Hr. injection Hr as <-. exists "".
    f_equal. clear. induction db as [|c db IH]; simpl; [reflexivity | now rewrite <- IH].
  - unfold _add_database_to_schema_name in Hr. rewrite Hdb in Hr. discriminate.
  - rewrite Hstr in Hr. injection Hr as <-. destruct (all_space s).
    + exists "". f_equal. clear. induction db as [|c db IH]; simpl;
        [reflexivity | now rewrite <- IH].
    + now exists ("." +:+ s).
Qed.

Lemma add_database_stays_in_database_witness :
  exists t : string, PyStr "sales.public" = PyStr ("sales" +:+ t).
Proof.
  apply (add_database_stays_in_database (sample_connector (Some "sales")) "sales"
           (PyStr "public") (PyStr "sales.public")).
  - reflexivity.
  - vm_compute. reflexivity.
Defined.

(** X3: Stripping an engine name [database + "." + s] and prefixing the result
    again gives the engine name back when [s] is not blank; when [s] is
    made of white space only (or empty) the result is the bare database
    name. *)
Theorem add_after_remove_roundtrip (self : DremioConnector) (db s : string) :
  database self = Some db ->
  _remove_database_from_schema_name self (PyStr (db +:+ "." +:+ s))
    ≫= _add_database_to_schema_name self
  = Returns (PyStr (if all_space s then db else db +:+ "." +:+ s)).
Proof. exact (add_after_remove_value self db s). Qed.

Lemma add_after_remove_roundtrip_witness :
  _remove_database_from_schema_name (sample_connector (Some "sales"))
      (PyStr ("sales" +:+ "." +:+ "public"))
    ≫= _add_database_to_schema_name (sample_connector (Some "sales"))
  = Returns (PyStr (if all_space "public" then "sales" else "sales" +:+ "." +:+ "public")).
Proof.
  apply (add_after_remove_roundtrip (sample_connector (Some "sales")) "sales" "public").
  reflexivity.
Defined.

(** X4: On a string, stripping never raises and never invents characters: the
    result is the input without a prefix of at most [len(database) + 1]
    characters. *)
Theorem remove_database_returns_suffix (self : DremioConnector) (db s : string) :
  database self = Some db ->
  exists pre r : string,
    _remove_database_from_schema_name self (PyStr s) = Returns (PyStr r)
    /\ s = pre +:+ r
    /\ String.length pre <= String.length db + 1.
Proof.
  intros Hdb. rewrite (remove_database_str self db s Hdb).
  destruct (negb (startswith s db) || String.eqb s db).
  - exists "", s. repeat split. simpl. lia.
  - destruct (slice_from_suffix (String.length db + 1) s) as [pre [Hpre Hlen]].
    exists pre, (slice_from (String.length db + 1) s). repeat split; assumption.
Qed.

Lemma remove_database_returns_suffix_witness :
  exists pre r : string,
    _remove_database_from_schema_name (sample_connector (Some "sales")) (PyStr "salesforce")
    = Returns (PyStr r)
    /\ "salesforce" = pre +:+ r
    /\ String.length pre <= String.length "sales" + 1.
Proof.
  apply (remove_database_returns_suffix (sample_connector (Some "sales")) "sales" "salesforce").
  reflexivity.
Defined.

(** ** Delegation to the generic source *)

Section DelegationProperties.

Variables Inspector TableType Columns SchemaDefinition Relations : Type.
Variable super_get_columns_and_constraints :
  pyval -> string -> string -> Inspector -> result Columns.
Variable super_get_schema_definition :
  TableType -> string -> pyval -> Inspector -> result SchemaDefinition.
Variable super_query_table_names_and_types : pyval -> result Relations.
Variable super_query_view_names_and_types : pyval -> result Relations.
Variable get_schema_names : World -> list string.

Lemma clean_schema_names_unset (self : DremioConnector) (schemas : list string) :
  database self = None ->
  clean_schema_names self schemas = {| yielded := List.map PyStr schemas; raised := None |}.
Proof.
  intros Hdb. induction schemas as [|raw schemas IH]; [reflexivity|].
  cbn [clean_schema_names List.map].
  rewrite (remove_database_unset self (PyStr raw) Hdb), IH. reflexivity.
Qed.

(** X5: While no database is selected the connector is transparent: both
    translations return any value, [None] included, as it is; the four
    overridden methods answer what the generic source answers for the same
    schema name; and schema discovery yields the inspector's schema names
    unchanged, in order, without raising. *)
Theorem unset_database_is_transparent (self : DremioConnector) (w : World) :
  database self = None ->
  (forall v : pyval, _remove_database_from_schema_name self v = Returns v)
  /\ (forall v : pyval, _add_database_to_schema_name self v = Returns v)
  /\ (forall (v : pyval) (table_name db_name : string) (inspector : Inspector),
        get_columns_and_constraints Inspector Columns super_get_columns_and_constraints
          self v table_name db_name inspector
        = super_get_columns_and_constraints v table_name db_name inspector)
  /\ (forall (table_type : TableType) (table_name : string) (v : pyval)
             (inspector : Inspector),
        get_schema_definition Inspector TableType SchemaDefinition
          super_get_schema_definition self table_type table_name v inspector
        = super_get_schema_definition table_type table_name v inspector)
  /\ (forall v : pyval,
        query_table_names_and_types Relations super_query_table_names_and_types self v
        = super_query_table_names_and_types v)
  /\ (forall v : pyval,
        query_view_names_and_types Relations super_query_view_names_and_types self v
        = super_query_view_names_and_types v)
  /\ get_raw_database_schema_names get_schema_names self w
     = {| yielded := List.map PyStr (get_schema_names w); raised := None |}.
Proof.
  intros Hdb.
  assert (Hadd : forall v : pyval, _add_database_to_schema_name self v = Returns v).
  { intros v. unfold _add_database_to_schema_name. now rewrite Hdb. }
  split; [intros v; now apply remove_database_unset|].
  split; [exact Hadd|].
  unfold get_columns_and_constraints, get_schema_definition,
    query_table_names_and_types, query_view_names_and_types.
  repeat split; intros; try (now rewrite Hadd).
  unfold get_raw_database_schema_names. rewrite Hdb.
  now apply clean_schema_names_unset.
Qed.

(** X6: A catalog schema name obtained by stripping the engine name
    [database + "." + s], with [s] not blank, is re-qualified by each of
    the four overridden methods: the generic source is asked about the
    engine name. *)
Theorem relation_wrappers_requalify (self : DremioConnector) (db s : string)
    (cleaned : pyval) :
  database self = Some db ->
  all_space s = false ->
  _remove_database_from_schema_name self (PyStr (db +:+ "." +:+ s)) = Returns cleaned ->
  (forall (table_name db_name : string) (inspector : Inspector),
     get_columns_and_constraints Inspector Columns super_get_columns_and_constraints
       self cleaned table_name db_name inspector
     = super_get_columns_and_constraints (PyStr (db +:+ "." +:+ s))
         table_name db_name inspector)
  /\ (forall (table_type : TableType) (table_name : string) (inspector : Inspector),
        get_schema_definition Inspector TableType SchemaDefinition
          super_get_schema_definition self table_type table_name cleaned inspector
        = super_get_schema_definition table_type table_name (PyStr (db +:+ "." +:+ s))
            inspector)
  /\ query_table_names_and_types Relations super_query_table_names_and_types self cleaned
     = super_query_table_names_and_types (PyStr (db +:+ "." +:+ s))
  /\ query_view_names_and_types Relations super_query_view_names_and_types self cleaned
     = super_query_view_names_and_types (PyStr (db +:+ "." +:+ s)).
Proof.
  intros Hdb Hs Hclean.
  pose proof (add_after_remove_value self db s Hdb) as Hround.
  rewrite Hclean, Hs in Hround. cbn [mbind result_bind] in Hround.
  unfold get_columns_and_constraints, get_schema_definition,
    query_table_names_and_types, query_view_names_and_types.
  repeat split; intros; now rewrite Hround.
Qed.


End DelegationProperties.

Lemma unset_database_is_transparent_witness :
  get_raw_database_schema_names SCHEMATA (sample_connector None)
    (sample_world ["sales"; "sales.public"])
  = {| yielded := [PyStr "sales"; PyStr "sales.public"]; raised := None |}.
Proof.
  apply (unset_database_is_transparent unit unit pyval pyval pyval
           (fun v _ _ _ => echo_source v) (fun _ _ v _ => echo_source v)
           echo_source echo_source SCHEMATA
           (sample_connector None) (sample_world ["sales"; "sales.public"])).
  reflexivity.
Defined.

Lemma relation_wrappers_requalify_witness :
  query_table_names_and_types pyval echo_source (sample_connector (Some "sales"))
    (PyStr "public")
  = echo_source (PyStr ("sales" +:+ "." +:+ "public")).
Proof.
  apply (relation_wrappers_requalify unit unit pyval pyval pyval
           (fun v _ _ _ => echo_source v) (fun _ _ v _ => echo_source v)
           echo_source echo_source
           (sample_connector (Some "sales")) "sales" "public" (PyStr "public")).
  - reflexivity.
  - vm_compute. reflexivity.
  - vm_compute. reflexivity.
Defined.


(** ** The queries, continued *)



(** Without wildcards a pattern prefix matches itself only. *)
Lemma like_literal_prefix (d p s : string) :
  literal d = true ->
  like (d +:+ p) s = true <-> exists r : string, s = d +:+ r /\ like p r = true.
Proof.
  intros Hd. revert s. induction d as [|c d IH]; intros s.
  - cbn [String.append]. split.
    + intros H. now exists s.
    + intros [r [-> H]]. exact H.
  - cbn [literal] in Hd. apply andb_prop in Hd as [Hc Hd].
    apply andb_prop in Hc as [Hpct Hund].
    apply negb_true_iff in Hpct, Hund.
    cbn [String.append like]. rewrite Hpct. destruct s as [|x s].
    + split; [discriminate | intros [r [Hr _]]; discriminate].
    + rewrite Hund. cbn [orb]. rewrite andb_true_iff, (IH Hd s). split.
      * intros [Hx [r [-> Hr]]]. apply Ascii.eqb_eq in Hx. subst x. now exists r.
      * intros [r [Hr Hp]]. injection Hr as -> ->. split; [apply Ascii.eqb_refl|].
        now exists r.
Qed.


(** X8: The database candidates are exactly the catalogue names that are
    neither engine-internal nor nested: none is added, none is lost. *)
Theorem DREMIO_GET_DATABASES_exact (w : World) (n : string) :
  In n (DREMIO_GET_DATABASES w) <-> In n (SCHEMATA w) /\ ~ system_namespace n.
Proof.
  unfold DREMIO_GET_DATABASES. rewrite List.filter_In.
  split; intros [Hin Hn]; (split; [exact Hin|]).
  - assert (Hclean : Forall (fun n => ~ system_namespace n)
                       (DREMIO_GET_DATABASES (with_schemata [n] w))).
    { apply DREMIO_GET_DATABASES_clean. }
    unfold DREMIO_GET_DATABASES, with_schemata in Hclean. cbn [SCHEMATA List.filter] in Hclean.
    rewrite Hn in Hclean. now inversion Hclean.
  - unfold DREMIO_GET_DATABASES_where, STARTS_WITH.
    destruct (like "%.%" n) eqn:Hdot.
    { exfalso. apply Hn. right. right. now apply like_contains_dot. }
    destruct (startswith n "@") eqn:Hat; [exfalso; apply Hn; now left|].
    destruct (startswith n "$") eqn:Hdollar; [exfalso; apply Hn; right; now left|].
    reflexivity.
Qed.

(** For a database name without [LIKE] wildcards the schema query returns
    exactly the catalogue names of the form [database + "." + r]. *)
Lemma DREMIO_GET_SCHEMAS_literal (db : string) (w : World) (n : string) :
  literal db = true ->
  In n (DREMIO_GET_SCHEMAS db w)
  <-> In n (SCHEMATA w) /\ exists r : string, n = db +:+ "." +:+ r.
Proof.
  intros Hdb. unfold DREMIO_GET_SCHEMAS. rewrite List.filter_In.
  rewrite (like_literal_prefix db ".%" n Hdb).
  split; intros [Hin [r Hr]]; (split; [exact Hin|]).
  - destruct Hr as [-> Hr]. apply like_dot_percent in Hr as [b ->]. now exists b.
  - exists ("." +:+ r). split; [exact Hr|]. apply like_dot_percent. now exists r.
Qed.

(** ** Schema discovery, continued *)



Section SchemaDiscoveryProperties.

Variable get_schema_names : World -> list string.



End SchemaDiscoveryProperties.



(** ** Connection URL, continued *)

Section UrlShape.

Variable set_iter : gset string -> list string.

(** With the three required options present and not empty the call
    returns this URL. *)
Lemma get_connection_url_value (connection : CustomDatabaseConnection) (u p h : string) :
  connectionOptions connection !! "username" = Some u -> u <> "" ->
  connectionOptions connection !! "password" = Some p -> p <> "" ->
  connectionOptions connection !! "hostPort" = Some h -> h <> "" ->
  get_connection_url set_iter connection
  = Returns ("dremio+flight://" +:+ u +:+ ":" +:+ p +:+ "@" +:+ h +:+ "/?"
             +:+ String.concat "&"
                   (["UseEncryption=" +:+ option_text connection "UseEncryption" "False";
                     "disableCertificateVerification="
                     +:+ option_text connection "disableCertificateVerification" "True"]
                    ++ List.map (fun k => k +:+ "=" +:+ option_text connection k "None")
                         (set_iter (dom (connectionOptions connection) ∖ handled_options)))).
Proof.
  intros Hu Hu' Hp Hp' Hh Hh'. unfold get_connection_url.
  rewrite (get_option_present _ _ _ _ _ Hu Hu'), (get_option_present _ _ _ _ _ Hp Hp'),
    (get_option_present _ _ _ _ _ Hh Hh').
  cbn [mbind result_bind].
  assert (Hopt : forall (k : string) (b : bool),
             exists v : pyval,
               _get_option_or_else connection k (PyBool b) false = Returns v
               /\ py_str v = option_text connection k (py_str (PyBool b))).
  { intros k b. unfold _get_option_or_else, option_text.
    destruct (connectionOptions connection !! k) as [s|].
    - cbn [truthy]. destruct (String.eqb s ""); cbn [negb]; eexists; split; reflexivity.
    - eexists; split; reflexivity. }
  destruct (Hopt "UseEncryption" false) as [ue [-> Hue]].
  destruct (Hopt "disableCertificateVerification" true) as [dcv [-> Hdcv]].
  cbn [mbind result_bind]. rewrite passthrough_rendered.
  cbn [mbind result_bind mret result_ret py_str]. rewrite Hue, Hdcv.
  cbn [py_str]. f_equal. rewrite !append_assoc. reflexivity.
Qed.

(** The error names the first missing option in the order [username],
    [password], [hostPort]. *)
Lemma get_connection_url_error (connection : CustomDatabaseConnection) :
  (option_missing connection "username" ->
   get_connection_url set_iter connection
   = Raises (InvalidDremioConnectorException "Missing connection option: username"))
  /\ (~ option_missing connection "username" ->
      option_missing connection "password" ->
      get_connection_url set_iter connection
      = Raises (InvalidDremioConnectorException "Missing connection option: password"))
  /\ (~ option_missing connection "username" ->
      ~ option_missing connection "password" ->
      option_missing connection "hostPort" ->
      get_connection_url set_iter connection
      = Raises (InvalidDremioConnectorException "Missing connection option: hostPort")).
Proof.
  unfold get_connection_url. split; [|split].
  - intros Hu. now rewrite (get_option_missing _ _ _ _ Hu).
  - intros Hnu Hp.
    destruct (option_missing_dec connection "username") as [Hu | [u [Hu Hu']]];
      [contradiction|].
    rewrite (get_option_present _ _ _ _ _ Hu Hu'). cbn [mbind result_bind].
    now rewrite (get_option_missing _ _ _ _ Hp).
  - intros Hnu Hnp Hh.
    destruct (option_missing_dec connection "username") as [Hu | [u [Hu Hu']]];
      [contradiction|].
    destruct (option_missing_dec connection "password") as [Hp | [p [Hp Hp']]];
      [contradiction|].
    rewrite (get_option_present _ _ _ _ _ Hu Hu'), (get_option_present _ _ _ _ _ Hp Hp').
    cbn [mbind result_bind].
    now rewrite (get_option_missing _ _ _ _ Hh).
Qed.

(** X11: The shape of every URL: the fixed scheme, the credentials and the
    host as given, then [UseEncryption] and
    [disableCertificateVerification] with their own value or the defaults
    [False] and [True], then one [key=value] per remaining option in the
    set's iteration order, an empty value rendered as [None]. *)
Theorem get_connection_url_shape (connection : CustomDatabaseConnection) (u p h : string) :
  connectionOptions connection !! "username" = Some u -> u <> "" ->
  connectionOptions connection !! "password" = Some p -> p <> "" ->
  connectionOptions connection !! "hostPort" = Some h -> h <> "" ->
  get_connection_url set_iter connection
  = Returns ("dremio+flight://" +:+ u +:+ ":" +:+ p +:+ "@" +:+ h +:+ "/?"
             +:+ String.concat "&"
                   (["UseEncryption=" +:+ option_text connection "UseEncryption" "False";
                     "disableCertificateVerification="
                     +:+ option_text connection "disableCertificateVerification" "True"]
                    ++ List.map (fun k => k +:+ "=" +:+ option_text connection k "None")
                         (set_iter (dom (connectionOptions connection) ∖ handled_options)))).
Proof. exact (get_connection_url_value connection u p h). Qed.

(** X12: The call returns a URL exactly when none of the three required
    options is absent or empty; the optional and pass-through options can
    never make it fail. *)
Theorem get_connection_url_succeeds_iff (connection : CustomDatabaseConnection) :
  (exists url : string, get_connection_url set_iter connection = Returns url)
  <-> (forall k : string, In k required_options -> ~ option_missing connection k).
Proof.
  destruct (get_connection_url_error connection) as [Eu [Ep Eh]].
  split.
  - intros [url Hurl] k Hk Hmiss.
    destruct (option_missing_dec connection "username") as [Hu | [u [Hu Hu']]].
    { rewrite (Eu Hu) in Hurl. discriminate. }
    assert (Hnu : ~ option_missing connection "username").
    { intros [H | H]; rewrite Hu in H; congruence. }
    destruct (option_missing_dec connection "password") as [Hp | [p [Hp Hp']]].
    { rewrite (Ep Hnu Hp) in Hurl. discriminate. }
    assert (Hnp : ~ option_missing connection "password").
    { intros [H | H]; rewrite Hp in H; congruence. }
    simpl in Hk. destruct Hk as [<- | [<- | [<- | []]]]; [contradiction | contradiction |].
    rewrite (Eh Hnu Hnp Hmiss) in Hurl. discriminate.
  - intros Hall.
    destruct (option_missing_dec connection "username") as [Hu | [u [Hu Hu']]].
    { exfalso. apply (Hall "username"); [simpl; auto | exact Hu]. }
    destruct (option_missing_dec connection "password") as [Hp | [p [Hp Hp']]].
    { exfalso. apply (Hall "password"); [simpl; auto | exact Hp]. }
    destruct (option_missing_dec connection "hostPort") as [Hh | [h [Hh Hh']]].
    { exfalso. apply (Hall "hostPort"); [simpl; auto | exact Hh]. }
    eexists. exact (get_connection_url_value connection u p h Hu Hu' Hp Hp' Hh Hh').
Qed.

(** X13: When several required options are missing the error names the first
    one in the order [username], [password], [hostPort]. *)
Theorem get_connection_url_names_first_missing (connection : CustomDatabaseConnection) :
  (option_missing connection "username" ->
   get_connection_url set_iter connection
   = Raises (InvalidDremioConnectorException "Missing connection option: username"))
  /\ (~ option_missing connection "username" ->
      option_missing connection "password" ->
      get_connection_url set_iter connection
      = Raises (InvalidDremioConnectorException "Missing connection option: password"))
  /\ (~ option_missing connection "username" ->
      ~ option_missing connection "password" ->
      option_missing connection "hostPort" ->
      get_connection_url set_iter connection
      = Raises (InvalidDremioConnectorException "Missing connection option: hostPort")).
Proof. exact (get_connection_url_error connection). Qed.

End UrlShape.

Lemma get_connection_url_shape_witness :
  get_connection_url elements traced_connection
  = Returns ("dremio+flight://" +:+ "u" +:+ ":" +:+ "p" +:+ "@" +:+ "h:1234" +:+ "/?"
             +:+ String.concat "&"
                   (["UseEncryption=" +:+ option_text traced_connection "UseEncryption" "False";
                     "disableCertificateVerification="
                     +:+ option_text traced_connection "disableCertificateVerification" "True"]
                    ++ List.map (fun k => k +:+ "=" +:+ option_text traced_connection k "None")
                         (elements (dom (connectionOptions traced_connection)
                                    ∖ handled_options)))).
Proof.
  apply (get_connection_url_shape elements traced_connection "u" "p" "h:1234").
  - vm_compute. reflexivity.
  - discriminate.
  - vm_compute. reflexivity.
  - discriminate.
  - vm_compute. reflexivity.
  - discriminate.
Defined.

Lemma get_connection_url_names_first_missing_witness :
  get_connection_url elements {| connectionOptions := {[ "password" := "p" ]} |}
  = Raises (InvalidDremioConnectorException "Missing connection option: username").
Proof.
  apply (get_connection_url_names_first_missing elements
           {| connectionOptions := {[ "password" := "p" ]} |}).
  left. vm_compute. reflexivity.
Defined.

Lemma get_connection_url_succeeds_iff_witness :
  exists url : string, get_connection_url elements sample_connection = Returns url.
Proof.
  apply (get_connection_url_succeeds_iff elements sample_connection).
  intros k Hk [H | H]; simpl in Hk;
    destruct Hk as [<- | [<- | [<- | []]]]; vm_compute in H; discriminate.
Defined.

(** ** Database discovery, continued *)

Lemma last_cons_default {A : Type} (a d : A) (l : list A) :
  List.last (a :: l) d = List.last l a.
Proof.
  destruct l as [|b l]; [reflexivity|].
  change (List.last (a :: b :: l) d) with (List.last (b :: l) d).
  revert b. induction l as [|x l IH]; intros b; [reflexivity|].
  change (List.last (x :: l) d = List.last (x :: l) a). apply IH.
Qed.

Lemma same_settings_refl (a : DremioConnector) : same_settings a a.
Proof. repeat split. Qed.

Lemma same_settings_trans (a b c : DremioConnector) :
  same_settings a b -> same_settings b c -> same_settings a c.
Proof.
  intros [H1 [H2 [H3 H4]]] [K1 [K2 [K3 K4]]].
  repeat split; congruence.
Qed.

Section DiscoveryRuns.

Variable set_iter : gset string -> list string.
Variable fqn_build : string -> string -> string.
Variable filter_by_database : option FilterPattern -> string -> bool.
Variable create_engine : nat -> string -> result Engine.

Local Abbreviation switch := (set_inspector set_iter create_engine).
Local Abbreviation loop :=
  (database_loop set_iter fqn_build filter_by_database create_engine).
Local Abbreviation filtered_out := (database_filtered_out fqn_build filter_by_database).

Lemma database_filtered_out_settings (a b : DremioConnector) (c : string) :
  same_settings a b -> filtered_out a c = filtered_out b c.
Proof.
  intros [_ [Hp [Hf Hs]]]. unfold database_filtered_out. now rewrite Hp, Hf, Hs.
Qed.

Lemma database_loop_cons (c : string) (candidates : list string)
    (self : DremioConnector) (w : World) :
  loop (c :: candidates) self w
  = if filtered_out self c
    then loop candidates
           (set_status self
              (status_filter (fqn_build (database_service self) c) "Database Filtered Out"
                 (status self))) w
    else match switch self w c with
         | (Returns _, self1, w1) =>
             let '(g, self2, w2) := loop candidates self1 w1 in (gen_cons c g, self2, w2)
         | (Raises exc, self1, w1) =>
             loop candidates self1
               (emit (LogWarning ("Error trying to process database " +:+ c +:+ ": "
                                  +:+ exn_message exc))
                     (emit (LogErrorTraceback exc) w1))
         end.
Proof. reflexivity. Qed.





(** What a switch leaves alone, and what it writes. *)
Lemma set_inspector_frame (self : DremioConnector) (w : World) (c : string) :
  run_frame self (switch self w c).1.2 w (switch self w c).2.
Proof.
  unfold set_inspector, get_connection, run_frame.
  destruct (get_connection_url set_iter (service_connection self)) as [url|e].
  - cbn [emit engines_built log SCHEMATA].
    destruct (create_engine (engines_built w) url); cbn; repeat split; try lia;
      try (exists []; now rewrite List.app_nil_r); now eexists.
  - cbn. repeat split; try lia; try (exists []; now rewrite List.app_nil_r); now eexists.
Qed.





Lemma set_status_settings (self : DremioConnector) (st : Status) :
  same_settings (set_status self st) self.
Proof. repeat split. Qed.

Lemma database_loop_selected (candidates : list string) (self : DremioConnector) (w : World) :
  database (loop candidates self w).1.2
  = last_selected (yielded (loop candidates self w).1.1) (database self).
Proof.
  revert self w. induction candidates as [|c candidates IH]; intros self w.
  - reflexivity.
  - rewrite database_loop_cons. destruct (filtered_out self c).
    + exact (IH _ w).
    + destruct (switch self w c) as [[[u|exc] self1] w1] eqn:Hswitch.
      * assert (Hdb : database self1 = Some c).
        { unfold set_inspector in Hswitch.
          destruct (get_connection set_iter create_engine (service_connection self) _)
            as [[e|e] w']; [|discriminate].
          injection Hswitch as _ <- _. reflexivity. }
        specialize (IH self1 w1). rewrite Hdb in IH.
        destruct (loop candidates self1 w1) as [[g self2] w2]; cbn [fst snd] in *.
        rewrite IH. unfold last_selected. cbn [gen_cons yielded List.map].
        now rewrite last_cons_default.
      * apply set_inspector_raises in Hswitch as [-> _]. apply IH.
Qed.

Lemma database_loop_sublist (self : DremioConnector) (candidates : list string)
    (self0 : DremioConnector) (w : World) :
  same_settings self0 self ->
  yielded (loop candidates self0 w).1.1
    `sublist_of` List.filter (fun c => negb (filtered_out self c)) candidates.
Proof.
  revert self0 w. induction candidates as [|c candidates IH]; intros self0 w Hsame.
  - constructor.
  - rewrite database_loop_cons. cbn [List.filter].
    rewrite <- (database_filtered_out_settings self0 self c Hsame).
    destruct (filtered_out self0 c); cbn [negb].
    + apply IH. exact (same_settings_trans _ _ _ (set_status_settings _ _) Hsame).
    + pose proof (set_inspector_frame self0 w c) as [Hs1 _].
      destruct (switch self0 w c) as [[[u|exc] self1] w1]; cbn [fst snd] in Hs1.
      * specialize (IH self1 w1 (same_settings_trans _ _ _ Hs1 Hsame)).
        destruct (loop candidates self1 w1) as [[g self2] w2]; cbn [fst snd] in *.
        now apply sublist_skip.
      * apply sublist_cons. apply IH. exact (same_settings_trans _ _ _ Hs1 Hsame).
Qed.

(** X15: The names a run yields are, in catalogue order and without
    repetition of an entry, among the candidates that pass the filter:
    a filtered-out database is never yielded. *)
Theorem get_database_names_yields_unfiltered (self : DremioConnector) (w : World) :
  yielded (get_database_names set_iter fqn_build filter_by_database create_engine
             self w).1.1
    `sublist_of` List.filter
                   (fun c => negb (database_filtered_out fqn_build filter_by_database self c))
                   (DREMIO_GET_DATABASES w).
Proof.
  rewrite get_database_names_unfold. apply database_loop_sublist, same_settings_refl.
Qed.

(** X16: After a run the selected database is the last name that was yielded,
    or the one selected before when nothing was yielded. *)
Theorem get_database_names_selects_last (self : DremioConnector) (w : World) :
  let run := get_database_names set_iter fqn_build filter_by_database create_engine self w in
  database run.1.2 = last_selected (yielded run.1.1) (database self).
Proof.
  intros run. subst run. rewrite get_database_names_unfold. apply database_loop_selected.
Qed.






End DiscoveryRuns.

Lemma DREMIO_GET_DATABASES_exact_witness :
  In "sales" (DREMIO_GET_DATABASES (sample_world ["@tmp"; "sales"; "sales.public"])).
Proof.
  apply (DREMIO_GET_DATABASES_exact (sample_world ["@tmp"; "sales"; "sales.public"]) "sales").
  split.
  - simpl. right. left. reflexivity.
  - intros [H | [H | [a [b H]]]]; [discriminate H | discriminate H |].
    assert (Hdot : like "%.%" "sales" = true) by (apply like_contains_dot; now exists a, b).
    vm_compute in Hdot. discriminate Hdot.
Defined.



(** ** Switching the database, continued *)

Section SwitchProperties.

Variable set_iter : gset string -> list string.
Variable create_engine : nat -> string -> result Engine.

(** X19: A switch is all or nothing for the connector object. It first logs
    one [info] record; then either the URL cannot be built or the driver
    fails, and the call raises with the object exactly as it was (the
    previously selected database and both caches included); or the call
    returns, the given name is the selected database, the engine is the
    one the driver built from the connection's URL, both caches are empty
    and configuration and status are untouched. The driver is asked at
    most once, and not at all without a URL. *)
Theorem set_inspector_all_or_nothing (self : DremioConnector) (w : World)
    (database_name : string) :
  let '(outcome, self', w') := set_inspector set_iter create_engine self w database_name in
  log w' = (log w ++ [LogInfo ("Ingesting from database: " +:+ database_name)])%list
  /\ SCHEMATA w' = SCHEMATA w
  /\ match outcome with
     | Raises exc =>
         self' = self
         /\ (get_connection_url set_iter (service_connection self) = Raises exc
             /\ engines_built w' = engines_built w
             \/ exists url : string,
                  get_connection_url set_iter (service_connection self) = Returns url
                  /\ create_engine (engines_built w) url = Raises exc
                  /\ engines_built w' = S (engines_built w))
     | Returns _ =>
         exists (url : string) (e : Engine),
           get_connection_url set_iter (service_connection self) = Returns url
           /\ create_engine (engines_built w) url = Returns e
           /\ engine self' = Some e
           /\ database self' = Some database_name
           /\ _connection_map self' = ∅ /\ _inspector_map self' = ∅
           /\ same_settings self' self /\ status self' = status self
           /\ engines_built w' = S (engines_built w)
     end.
Proof.
  unfold set_inspector, get_connection.
  destruct (get_connection_url set_iter (service_connection self)) as [url|exc].
  - cbn [emit engines_built log SCHEMATA].
    destruct (create_engine (engines_built w) url) as [e|exc] eqn:He.
    + split; [reflexivity|]. split; [reflexivity|].
      exists url, e. cbn. repeat split. exact He.
    + split; [reflexivity|]. split; [reflexivity|]. split; [reflexivity|].
      right. exists url. repeat split. exact He.
  - split; [reflexivity|]. split; [reflexivity|]. split; [reflexivity|].
    left. split; reflexivity.
Qed.

End SwitchProperties.
